(** * verify_launch: the pre-launch backend health check

    A shallow embedding of [scripts/verify_launch.py] and the proofs of its
    specification.  The script sends one HTTP request per entry of a static
    table, classifies every outcome as passed, protected or failed, prints
    one line per entry and a summary, and returns the process exit code.

    What the Python code gets from its libraries is kept abstract and
    collected in the class [Environment]: the network behind [urlopen]
    (threaded as explicit state, so that two identical requests may be
    answered differently) and [json.dumps].  Everything the script itself
    does is a Rocq function: building the request, the [try]/[except]
    classification, the counters, the formatted lines and the exit code.

    Exceptions are those below [Exception], which is what the script
    handles; an asynchronous interrupt of the interpreter is not modelled. *)

From Stdlib Require Import ZArith String Ascii DecimalString List Lia.
From stdpp Require Import base option list gmap strings.

Open Scope Z_scope.
Open Scope string_scope.

(** ** Python strings *)

Module PyStr.

(** The line feed, written [\n] in the Python source. *)
Definition nl : string := String "010"%char EmptyString.

(** [str(n)] and [f"{n}"] for an [int]. *)
Definition of_int (n : Z) : string := NilZero.string_of_int (Z.to_int n).

(** [s * n] *)
Fixpoint mul (s : string) (n : nat) : string :=
  match n with
  | O => EmptyString
  | S n' => s +:+ mul s n'
  end.

(** [needle in s] *)
Fixpoint contains (needle s : string) : bool :=
  String.prefix needle s ||
  match s with
  | EmptyString => false
  | String _ s' => contains needle s'
  end.

(** [s.rstrip(c)] for a one-character [c]: every trailing [c] goes. *)
Fixpoint rstrip (s : string) (c : ascii) : string :=
  match s with
  | EmptyString => EmptyString
  | String a s' =>
      match rstrip s' c with
      | EmptyString => if Ascii.eqb a c then EmptyString else String a EmptyString
      | r => String a r
      end
  end.

(** The format specification [{s:<w}]: [s] is left-aligned in a field of
    at least [w] characters, the fill (spaces) goes to its right; a longer
    [s] is kept whole.  Lengths are counted in bytes, which are the
    characters of the ASCII labels, methods and paths of the table. *)
Definition format_left (s : string) (w : nat) : string :=
  s +:+ mul " " (w - String.length s).

(** The format specification [{s:>w}]: [s] is right-aligned in a field of
    at least [w] characters, the fill goes to its left. *)
Definition format_right (s : string) (w : nat) : string :=
  mul " " (w - String.length s) +:+ s.

End PyStr.

(** ** Exceptions and results *)

(** The exceptions the script tells apart.  [HTTPError] is a subclass of
    [URLError] in [urllib.error]; the constructor [URLError] stands for the
    instances that are not an [HTTPError], and [OtherException] for the
    instances of [Exception] that are neither, carrying [str(e)]. *)
Inductive exception : Type :=
| HTTPError (code : Z) (reason : string)
| URLError (reason : string)
| OtherException (str : string).

Inductive result (A : Type) : Type :=
| Ok (a : A)
| Raise (e : exception).
Arguments Ok {A} a.
Arguments Raise {A} e.

(** ** The request and the environment *)

(** [urllib.request.Request(url, data=, headers=, method=)] *)
Record Request : Type := mkRequest {
  full_url : string;
  data : option (list Byte.byte);
  headers : gmap string string;
  method : string
}.

(** The part of the response object the script reads: [resp.status]. *)
Record Response : Type := mkResponse { status : Z }.

(** What the script takes from its libraries.  [urlopen req timeout] either
    returns a response or raises, and moves the network on; it stands for the
    construction of the request object and the call together, which sit in
    the same [try].  [json_dumps] is [json.dumps] on a [dict]; it raises on a
    value that is not serialisable. *)
Class Environment : Type := {
  world : Type;
  value : Type;
  urlopen : Request → Z → world → result Response * world;
  json_dumps : gmap string value → result string
}.

Section Program.

Context {Env : Environment}.

(** The state of a run: the network and what was printed so far, one
    entry per call of [print]. *)
Record state : Type := mkState {
  net : world;
  stdout : list string
}.

Definition M (A : Type) : Type := state → result A * state.

#[export] Instance M_ret : MRet M := λ A a s, (Ok a, s).

#[export] Instance M_bind : MBind M := λ A B f m s,
  match m s with
  | (Ok a, s') => f a s'
  | (Raise e, s') => (Raise e, s')
  end.

(** A pure computation that may raise. *)
Definition lift {A} (r : result A) : M A := λ s, (r, s).

(** [try: body / except ... as e: handler e] *)
Definition try_except {A} (body : M A) (handler : exception → M A) : M A :=
  λ s,
    match body s with
    | (Ok a, s') => (Ok a, s')
    | (Raise e, s') => handler e s'
    end.

(** [print(line)] *)
Definition print (line : string) : M unit :=
  λ s, (Ok tt, mkState (net s) (stdout s ++ [line])).

(** [with urlopen(req, timeout=t) as resp] *)
Definition call_urlopen (req : Request) (timeout : Z) : M Response :=
  λ s, let '(r, w) := urlopen req timeout (net s) in (r, mkState w (stdout s)).

(** The truth value of an optional [dict]: [None] and the empty
    dictionary are false. *)
Definition truthy {V} (d : option (gmap string V)) : bool :=
  match d with
  | None => false
  | Some m => bool_decide (m ≠ ∅)
  end.

(** [str.encode()]: strings are byte strings here. *)
Definition encode (s : string) : list Byte.byte := list_byte_of_string s.

(** ** [check_endpoint] *)

Definition check_endpoint (base_url path : string) (method : string)
    (data : option (gmap string value))
    (headers : option (gmap string string)) : M (bool * string) :=
  let url := base_url +:+ path in
  let req_headers : gmap string string :=
    {["Content-Type" := "application/json"]} in
  let req_headers :=
    if truthy headers then default ∅ headers ∪ req_headers else req_headers in
  try_except
    (body ← (if truthy data
             then s ← lift (json_dumps (default ∅ data)); mret (Some (encode s))
             else mret None);
     let req := mkRequest url body req_headers method in
     resp ← call_urlopen req 10;
     mret (true, "OK (" +:+ PyStr.of_int (status resp) +:+ ")"))
    (λ e,
      match e with
      | HTTPError code reason =>
          if decide (code ∈ [401; 403])
          then mret (true, "Protected (" +:+ PyStr.of_int code +:+ ")")
          else mret (false, "HTTP " +:+ PyStr.of_int code +:+ ": " +:+ reason)
      | URLError reason =>
          mret (false, "Connection failed: " +:+ reason)
      | OtherException str =>
          mret (false, str)
      end).

End Program.

(** ** [main] *)

(** The static table of [main]: (method, path, name), in source order. *)
Definition endpoints : list (string * string * string) :=
  [ ("GET", "/health", "Core Health");
    ("GET", "/api/v1/system/status", "System Status");
    ("POST", "/api/v1/users/login", "Login Endpoint");
    ("GET", "/api/v1/users/me", "Current User");
    ("GET", "/api/v1/printers", "List Printers");
    ("GET", "/api/v1/printers/types", "Printer Types");
    ("GET", "/api/v1/business/clients", "Clients");
    ("GET", "/api/v1/business/orders", "Orders");
    ("GET", "/api/v1/business/quotes/pricing-config", "Pricing Config");
    ("GET", "/api/v1/scheduling/queue", "Job Queue");
    ("GET", "/api/v1/production/history", "Print History");
    ("GET", "/api/v1/materials/spools", "Material Inventory");
    ("GET", "/api/v1/materials/profiles", "Material Profiles");
    ("GET", "/api/v1/config", "App Config");
    ("GET", "/api/v1/analytics/energy", "Energy Stats");
    ("GET", "/api/v1/cost/summary", "Cost Summary");
    ("GET", "/api/v1/reports/types", "Report Types");
    ("GET", "/api/v1/maintenance", "Maintenance Schedule");
    ("GET", "/api/v1/chat/history?channel=general&limit=1", "Chat History") ].

(** The three counters of [main], in the order they are initialised. *)
Record counters : Type := mkCounters {
  passed : Z;
  failed : Z;
  protected : Z
}.

(** [f"{icon} {name:<25} {method:>5} {path:<45} {status}"] *)
Definition endpoint_line (icon name method path status : string) : string :=
  icon +:+ " " +:+ PyStr.format_left name 25 +:+ " " +:+
  PyStr.format_right method 5 +:+ " " +:+
  PyStr.format_left path 45 +:+ " " +:+ status.

(** [f"\n📊 Results: {passed} passed, {protected} protected, {failed} failed"] *)
Definition summary_line (c : counters) : string :=
  PyStr.nl +:+ "📊 Results: " +:+ PyStr.of_int (passed c) +:+ " passed, " +:+
  PyStr.of_int (protected c) +:+ " protected, " +:+
  PyStr.of_int (failed c) +:+ " failed".

Section Main.

Context {Env : Environment}.

(** [for x in l: body], the loop variables carried in [acc]. *)
Fixpoint for_each {A B} (body : A → B → M A) (l : list B) (acc : A) : M A :=
  match l with
  | [] => mret acc
  | x :: l' => acc' ← body acc x; for_each body l' acc'
  end.

(** The body of the loop of [main] for one entry of the table. *)
Definition main_body (base : string) (c : counters)
    (endpoint : string * string * string) : M counters :=
  let '(method, path, name) := endpoint in
  '(ok, status) ← check_endpoint base path method None None;
  let '(icon, c) :=
    if ok : bool then
      if PyStr.contains "Protected" status
      then ("🔒", mkCounters (passed c) (failed c) (protected c + 1))
      else ("✅", mkCounters (passed c + 1) (failed c) (protected c))
    else ("❌", mkCounters (passed c) (failed c + 1) (protected c)) in
  _ ← print (endpoint_line icon name method path status);
  mret c.

(** [main], from the parsed command line on: [backend] is [args.backend]. *)
Definition main (backend : string) : M Z :=
  let base := PyStr.rstrip backend "/" in
  _ ← print (PyStr.nl +:+ "🔍 Checking backend at: " +:+ base +:+ PyStr.nl);
  _ ← print (PyStr.mul "=" 60);
  c ← for_each (main_body base) endpoints (mkCounters 0 0 0);
  _ ← print (PyStr.mul "=" 60);
  _ ← print (summary_line c);
  if (failed c =? 0)%Z then
    _ ← print (PyStr.nl +:+ "✅ Backend is ready for launch!");
    mret 0
  else
    _ ← print (PyStr.nl +:+ "⚠️  " +:+ PyStr.of_int (failed c) +:+
               " endpoint(s) have issues. Check logs.");
    mret 1.

End Main.

(** ** Observations on a run

    The definitions of this part are not in the script: they name what the
    theorems talk about (the request a call sends, the outcome of a check,
    the bucket an endpoint falls in) and are related to the code by the
    lemmas [check_endpoint_run], [main_body_run] and [for_each_run]. *)

Inductive bucket : Type := Passed | Protected | Failed.

#[export] Instance bucket_eq_dec : EqDecision bucket.
Proof. solve_decision. Defined.

(** The bucket [main] puts a check result in. *)
Definition classify (r : bool * string) : bucket :=
  if r.1 then
    if PyStr.contains "Protected" r.2 then Protected else Passed
  else Failed.

Definition icon_of (b : bucket) : string :=
  match b with
  | Passed => "✅"
  | Protected => "🔒"
  | Failed => "❌"
  end.

Definition bump (b : bucket) (c : counters) : counters :=
  match b with
  | Passed => mkCounters (passed c + 1) (failed c) (protected c)
  | Protected => mkCounters (passed c) (failed c) (protected c + 1)
  | Failed => mkCounters (passed c) (failed c + 1) (protected c)
  end.

(** How many results of a list fall in bucket [b]. *)
Definition tally (b : bucket) (rs : list (bool * string)) : Z :=
  Z.of_nat (length (filter (λ r, classify r = b) rs)).

(** The counters after the results [rs], starting from [c]. *)
Definition count_all (rs : list (bool * string)) (c : counters) : counters :=
  fold_left (λ c r, bump (classify r) c) rs c.

(** The process exit code for the final counters. *)
Definition exit_code (c : counters) : Z :=
  if (failed c =? 0)%Z then 0 else 1.

(** The last line [main] prints. *)
Definition closing_line (c : counters) : string :=
  if (failed c =? 0)%Z
  then PyStr.nl +:+ "✅ Backend is ready for launch!"
  else PyStr.nl +:+ "⚠️  " +:+ PyStr.of_int (failed c) +:+
       " endpoint(s) have issues. Check logs.".

(** The first line [main] prints. *)
Definition opening_line (base : string) : string :=
  PyStr.nl +:+ "🔍 Checking backend at: " +:+ base +:+ PyStr.nl.

(** What [check_endpoint] returns for an outcome of the [try] body. *)
Definition verdict (r : result Response) : bool * string :=
  match r with
  | Ok resp => (true, "OK (" +:+ PyStr.of_int (status resp) +:+ ")")
  | Raise (HTTPError code reason) =>
      if decide (code ∈ [401; 403])
      then (true, "Protected (" +:+ PyStr.of_int code +:+ ")")
      else (false, "HTTP " +:+ PyStr.of_int code +:+ ": " +:+ reason)
  | Raise (URLError reason) => (false, "Connection failed: " +:+ reason)
  | Raise (OtherException str) => (false, str)
  end.

(** The status of the HTTP response the backend sent, when one arrived:
    [urlopen] hands a response over as its return value, or, for an error
    status, as the [HTTPError] it raises, which carries the response. *)
Definition response_status (r : result Response) : option Z :=
  match r with
  | Ok resp => Some (status resp)
  | Raise (HTTPError code _) => Some code
  | Raise _ => None
  end.

(** The connection-level failures the specification names, and the
    exception [urlopen] raises for each.  [urllib] turns a failure while it
    connects and sends the request (the name is not resolved, the connection
    is refused, connecting times out) into a [URLError] that carries the
    cause; a timeout while it waits for the response is raised as the
    [TimeoutError] it is, which is not a [URLError]. *)
Inductive connection_failure : Type :=
| NameNotResolved
| ConnectionRefused
| ConnectTimeout
| ReadTimeout.

Definition raised_for (f : connection_failure) : exception :=
  match f with
  | NameNotResolved => URLError "[Errno -2] Name or service not known"
  | ConnectionRefused => URLError "[Errno 111] Connection refused"
  | ConnectTimeout => URLError "timed out"
  | ReadTimeout => OtherException "timed out"
  end.

Section Observations.

Context {Env : Environment}.

(** The headers [check_endpoint] sends. *)
Definition request_headers (headers : option (gmap string string))
    : gmap string string :=
  match headers with
  | Some h => h ∪ {["Content-Type" := "application/json"]}
  | None => {["Content-Type" := "application/json"]}
  end.

(** The request [check_endpoint] hands to [urlopen], or the exception
    [json.dumps] raised before there was one. *)
Definition request_for (base_url path method : string)
    (data : option (gmap string value))
    (headers : option (gmap string string)) : result Request :=
  match data with
  | Some d =>
      if decide (d = ∅)
      then Ok (mkRequest (base_url +:+ path) None (request_headers headers) method)
      else
        match json_dumps d with
        | Ok s => Ok (mkRequest (base_url +:+ path) (Some (encode s))
                        (request_headers headers) method)
        | Raise e => Raise e
        end
  | None => Ok (mkRequest (base_url +:+ path) None (request_headers headers) method)
  end.

(** One check on the network alone: the result and the network after. *)
Definition check (base_url path method : string)
    (data : option (gmap string value))
    (headers : option (gmap string string)) (w : world)
    : (bool * string) * world :=
  match request_for base_url path method data headers with
  | Ok req => let '(r, w') := urlopen req 10 w in (verdict r, w')
  | Raise e => (verdict (Raise e), w)
  end.

(** The results of the checks [main] makes for a list of table entries,
    in order, each on the network the one before left. *)
Fixpoint outcomes (base : string) (eps : list (string * string * string))
    (w : world) : list (bool * string) :=
  match eps with
  | [] => []
  | (method, path, _) :: eps' =>
      let '(r, w') := check base path method None None w in
      r :: outcomes base eps' w'
  end.

(** The network after these checks. *)
Fixpoint network_after (base : string) (eps : list (string * string * string))
    (w : world) : world :=
  match eps with
  | [] => w
  | (method, path, _) :: eps' =>
      network_after base eps' (check base path method None None w).2
  end.

(** The line [main] prints for a table entry and the result of its check. *)
Definition line_of (endpoint : string * string * string)
    (r : bool * string) : string :=
  let '(method, path, name) := endpoint in
  endpoint_line (icon_of (classify r)) name method path r.2.

End Observations.

(** ** The column layout in the words of the specification

    "Left-padded to [w] characters" puts the fill to the left of the text,
    "right-padded" to its right. *)

Definition left_padded (s : string) (w : nat) : string :=
  PyStr.mul " " (w - String.length s) +:+ s.

Definition right_padded (s : string) (w : nat) : string :=
  s +:+ PyStr.mul " " (w - String.length s).

(** Icon, label left-padded to 25, method right-padded to 5, path
    left-padded to 45, message. *)
Definition endpoint_line_as_specified (icon label method path message : string)
    : string :=
  icon +:+ " " +:+ left_padded label 25 +:+ " " +:+
  right_padded method 5 +:+ " " +:+
  left_padded path 45 +:+ " " +:+ message.

(** ** Two backends to run the script against *)

(** A backend played from a script: every call of [urlopen] takes the next
    outcome, and once the script is over nothing listens on the port.  Its
    dictionaries hold objects [json.dumps] cannot serialise. *)
Definition scripted : Environment := {|
  world := list (result Response);
  value := unit;
  urlopen := λ _ _ w,
    match w with
    | r :: w' => (r, w')
    | [] => (Raise (URLError "[Errno 111] Connection refused"), [])
    end;
  json_dumps := λ _,
    Raise (OtherException "Object of type object is not JSON serializable")
|}.

(** A backend that answers every GET with 200 and anything else with 401. *)
Definition guarded_login : Environment := {|
  world := unit;
  value := unit;
  urlopen := λ req _ w,
    if decide (method req = "GET")
    then (Ok (mkResponse 200), w)
    else (Raise (HTTPError 401 "UNAUTHORIZED"), w);
  json_dumps := λ _,
    Raise (OtherException "Object of type object is not JSON serializable")
|}.

(** A backend that answers every request with 200 and whose dictionaries
    hold integers, which [json.dumps] writes as a JSON object. *)
Definition serialising : Environment := {|
  world := unit;
  value := Z;
  urlopen := λ _ _ w, (Ok (mkResponse 200), w);
  json_dumps := λ d,
    Ok ("{" +:+
        String.concat ", "
          ((λ kv, String "034"%char EmptyString +:+ kv.1 +:+
                  String "034"%char EmptyString +:+ ": " +:+ PyStr.of_int kv.2)
             <$> map_to_list d) +:+
        "}")
|}.

(** A host on which nothing listens: every connection is refused. *)
Definition nothing_listens : Environment := {|
  world := unit;
  value := unit;
  urlopen := λ _ _ w, (Raise (URLError "[Errno 111] Connection refused"), w);
  json_dumps := λ _,
    Raise (OtherException "Object of type object is not JSON serializable")
|}.

(** A backend that refuses every request with 403. *)
Definition all_forbidden : Environment := {|
  world := unit;
  value := unit;
  urlopen := λ _ _ w, (Raise (HTTPError 403 "FORBIDDEN"), w);
  json_dumps := λ _,
    Raise (OtherException "Object of type object is not JSON serializable")
|}.

(** ** Watching the requests and the answers *)

(** An environment with a wiretap: it answers as [E] does and keeps, beside
    the network of [E], the list of the uses of [urlopen] of [E] so far,
    each with the arguments of the request and the timeout.  As [urlopen]
    of an environment stands for the construction of the request and the
    call together, an entry of the list is a call of Python's [urlopen]
    when the constructor accepts the URL; [plain_http_url] below is a
    condition under which it does. *)
Definition recorded (E : Environment) : Environment := {|
  world := (@world E * list (Request * Z))%type;
  value := @value E;
  urlopen := λ req timeout wl,
    let '(r, w') := @urlopen E req timeout wl.1 in
    (r, (w', (wl.2 ++ [(req, timeout)])%list));
  json_dumps := @json_dumps E
|}.

(** The request [main] sends for a table entry. *)
Definition table_request (base : string)
    (endpoint : string * string * string) : Request :=
  mkRequest (base +:+ endpoint.1.2) None
    {["Content-Type" := "application/json"]} endpoint.1.1.

(** The bucket of an answer of [urlopen]: a returned response passes, the
    error statuses 401 and 403 are protected, anything else raised fails. *)
Definition answer_bucket (r : result Response) : bucket :=
  match r with
  | Ok _ => Passed
  | Raise (HTTPError code _) =>
      if decide (code ∈ [401; 403]) then Protected else Failed
  | Raise _ => Failed
  end.

(** How many answers of a list fall in bucket [b]. *)
Definition answer_tally (b : bucket) (rs : list (result Response)) : Z :=
  Z.of_nat (length (filter (λ r, answer_bucket r = b) rs)).

(** [has_char a s]: the character [a] occurs in [s]. *)
Fixpoint has_char (a : ascii) (s : string) : bool :=
  match s with
  | EmptyString => false
  | String b s' => Ascii.eqb a b || has_char a s'
  end.

(** The characters of a plain URL: letters, digits and a few marks; no
    blank, no bracket, no [#], nothing outside ASCII. *)
Definition plain_char (c : ascii) : bool :=
  has_char c "abcdefghijklmnopqrstuvwxyzABCDEFGHIJKLMNOPQRSTUVWXYZ0123456789-._~:/?&=%+".

Fixpoint all_plain (s : string) : bool :=
  match s with
  | EmptyString => true
  | String c s' => plain_char c && all_plain s'
  end.

(** A URL that starts with [http://] or [https://] and is made of plain
    characters.  The constructor of [Request] accepts such a URL: it has a
    scheme, and it has none of the characters for which the constructor
    raises [ValueError]. *)
Definition plain_http_url (url : string) : bool :=
  (String.prefix "http://" url || String.prefix "https://" url)
  && all_plain url.

Section Answers.

Context {Env : Environment}.

(** The answers of [urlopen] to the requests of [main] for a list of table
    entries, in order, each on the network the one before left. *)
Fixpoint answers (base : string) (eps : list (string * string * string))
    (w : world) : list (result Response) :=
  match eps with
  | [] => []
  | endpoint :: eps' =>
      let '(r, w') := urlopen (table_request base endpoint) 10 w in
      r :: answers base eps' w'
  end.

End Answers.

(** ** The code and the observations agree *)

Section Agreement.

Context {Env : Environment}.

Lemma headers_agree (headers : option (gmap string string)) :
  (if truthy headers
   then default ∅ headers ∪ {["Content-Type" := "application/json"]}
   else {["Content-Type" := "application/json"]})
  = request_headers headers.
Proof.
  destruct headers as [h|]; simpl; [|done].
  case_bool_decide as Hh; [done|].
  subst h. by rewrite (left_id_L ∅ (∪)).
Qed.

(** [check_endpoint] never raises, leaves the output alone, and returns
    the verdict on what the [try] body did. *)
Lemma check_endpoint_run base_url path method data headers s :
  check_endpoint base_url path method data headers s =
  (Ok (check base_url path method data headers (net s)).1,
   mkState (check base_url path method data headers (net s)).2 (stdout s)).
Proof.
  destruct s as [w out].
  unfold check_endpoint, check, request_for, try_except. cbn zeta.
  rewrite headers_agree.
  destruct data as [d|]; simpl.
  - destruct (decide (d = ∅)) as [->|Hd].
    + rewrite bool_decide_eq_false_2 by auto.
      unfold mbind, M_bind, mret, M_ret, call_urlopen. simpl.
      destruct (urlopen _ _ _) as [[resp|e] w']; simpl; [done|].
      destruct e as [code reason|reason|str]; simpl; [|done|done].
      by destruct (decide (code ∈ [401; 403])).
    + rewrite bool_decide_eq_true_2 by done.
      unfold mbind, M_bind, mret, M_ret, call_urlopen, lift. simpl.
      destruct (json_dumps d) as [js|e]; simpl.
      * destruct (urlopen _ _ _) as [[resp|e] w']; simpl; [done|].
        destruct e as [code reason|reason|str]; simpl; [|done|done].
        by destruct (decide (code ∈ [401; 403])).
      * destruct e as [code reason|reason|str]; simpl; [|done|done].
        by destruct (decide (code ∈ [401; 403])).
  - unfold mbind, M_bind, mret, M_ret, call_urlopen. simpl.
    destruct (urlopen _ _ _) as [[resp|e] w']; simpl; [done|].
    destruct e as [code reason|reason|str]; simpl; [|done|done].
    by destruct (decide (code ∈ [401; 403])).
Qed.

(** One turn of the loop: the check, the counter of its bucket, its line. *)
Lemma main_body_run base c method path name s :
  main_body base c (method, path, name) s =
  let r := check base path method None None (net s) in
  (Ok (bump (classify r.1) c),
   mkState r.2 (stdout s ++ [line_of (method, path, name) r.1])).
Proof.
  unfold main_body, mbind, M_bind. rewrite check_endpoint_run.
  destruct (check base path method None None (net s)) as [[ok status] w'].
  cbn [fst snd]. unfold line_of, classify, bump, print, mret, M_ret.
  cbn [fst snd net stdout].
  destruct ok; [destruct (PyStr.contains "Protected" status)|]; reflexivity.
Qed.

(** The whole loop, from any counters and any state. *)
Lemma for_each_run base eps c s :
  for_each (main_body base) eps c s =
  (Ok (count_all (outcomes base eps (net s)) c),
   mkState (network_after base eps (net s))
           (stdout s ++ zip_with line_of eps (outcomes base eps (net s)))).
Proof.
  revert c s. induction eps as [|[[method path] name] eps IH]; intros c s.
  - destruct s as [w out]. simpl. unfold mret, M_ret. by rewrite app_nil_r.
  - cbn [for_each]. unfold mbind, M_bind. rewrite main_body_run. cbv beta iota zeta.
    rewrite IH. cbn [net stdout outcomes network_after].
    destruct (check base path method None None (net s)) as [r w'].
    cbn [fst snd zip_with count_all fold_left].
    by rewrite <- app_assoc.
Qed.

(** A run of [main]: it returns, with the exit code of the final
    counters, having printed the header, one line per table entry, the
    separator, the summary and the closing line. *)
Lemma main_run backend s :
  let base := PyStr.rstrip backend "/" in
  let rs := outcomes base endpoints (net s) in
  let c := count_all rs (mkCounters 0 0 0) in
  main backend s =
  (Ok (exit_code c),
   mkState (network_after base endpoints (net s))
           (stdout s ++ [opening_line base; PyStr.mul "=" 60]
              ++ zip_with line_of endpoints rs
              ++ [PyStr.mul "=" 60; summary_line c; closing_line c])).
Proof.
  intros base rs c. unfold main. fold base.
  unfold mbind at 1 2, M_bind at 1 2, print at 1 2. cbn [net stdout].
  unfold mbind at 1, M_bind at 1. rewrite for_each_run. cbn [net stdout].
  fold rs. fold c.
  unfold mbind at 1 2, M_bind at 1 2, print at 1 2. cbn [net stdout].
  unfold exit_code, closing_line, opening_line.
  destruct (failed c =? 0)%Z;
    unfold mbind, M_bind, print, mret, M_ret; cbn [net stdout];
    repeat rewrite <- app_assoc; reflexivity.
Qed.

Lemma outcomes_length base eps w :
  length (outcomes base eps w) = length eps.
Proof.
  revert w. induction eps as [|[[method path] name] eps IH]; intros w; [done|].
  simpl. destruct (check _ _ _ _ _ _) as [r w']. simpl. by rewrite IH.
Qed.

End Agreement.

(** ** Counting *)

Lemma tally_nil b : tally b [] = 0.
Proof. reflexivity. Qed.

Lemma tally_cons b r rs :
  tally b (r :: rs) = (if decide (classify r = b) then 1 else 0) + tally b rs.
Proof.
  unfold tally. rewrite filter_cons.
  destruct (decide (classify r = b)); simpl length; lia.
Qed.

Lemma tally_nonneg b rs : (0 ≤ tally b rs)%Z.
Proof. unfold tally. lia. Qed.

(** Every result falls in exactly one bucket. *)
Lemma tally_total rs :
  tally Passed rs + tally Protected rs + tally Failed rs = Z.of_nat (length rs).
Proof.
  induction rs as [|r rs IH]; [done|].
  rewrite !tally_cons. cbn [length].
  destruct (classify r);
    repeat (destruct (decide _); try congruence); lia.
Qed.

Lemma tally_zero b rs : tally b rs = 0 ↔ b ∉ classify <$> rs.
Proof.
  induction rs as [|r rs IH]; [rewrite tally_nil; set_solver|].
  rewrite tally_cons, fmap_cons, not_elem_of_cons.
  pose proof (tally_nonneg b rs).
  destruct (decide (classify r = b)) as [Heq|Hne].
  - split; [lia|]. intros [Hb _]. by destruct Hb.
  - rewrite Z.add_0_l, IH. split; [auto|tauto].
Qed.

Lemma count_all_cons r rs c :
  count_all (r :: rs) c = count_all rs (bump (classify r) c).
Proof. reflexivity. Qed.

(** The loop adds to each counter the results of its bucket. *)
Lemma count_all_tally rs c :
  passed (count_all rs c) = passed c + tally Passed rs ∧
  protected (count_all rs c) = protected c + tally Protected rs ∧
  failed (count_all rs c) = failed c + tally Failed rs.
Proof.
  revert c. induction rs as [|r rs IH]; intros c.
  - rewrite !tally_nil. unfold count_all. simpl. lia.
  - rewrite count_all_cons, !tally_cons.
    destruct (IH (bump (classify r) c)) as (-> & -> & ->).
    destruct (classify r); simpl;
      repeat (destruct (decide _); try congruence); lia.
Qed.

(** ** The lines of the table *)

(** The widths of the three padded columns. *)
Definition fits_columns (endpoint : string * string * string) : Prop :=
  let '(method, path, name) := endpoint in
  String.length (PyStr.format_left name 25) = 25%nat ∧
  String.length (PyStr.format_right method 5) = 5%nat ∧
  String.length (PyStr.format_left path 45) = 45%nat.

#[export] Instance fits_columns_dec endpoint : Decision (fits_columns endpoint).
Proof. destruct endpoint as [[method path] name]. simpl. apply _. Defined.

Lemma endpoints_fit_columns : Forall fits_columns endpoints.
Proof. by apply (bool_decide_unpack _). Qed.

Lemma icon_of_cases b : icon_of b ∈ ["✅"; "🔒"; "❌"].
Proof. destruct b; simpl; set_solver. Qed.

Lemma zip_lines (P : string * string * string → Prop) eps rs :
  Forall P eps → length rs = length eps →
  Forall2 (λ endpoint line, ∃ r, line = line_of endpoint r ∧ P endpoint)
    eps (zip_with line_of eps rs).
Proof.
  intros HP. revert rs. induction HP as [|ep eps Hep _ IH]; intros rs Hlen.
  - constructor.
  - destruct rs as [|r rs]; [discriminate|]. simpl.
    constructor; [eauto|]. apply IH. simpl in Hlen. lia.
Qed.

(** ** The specification *)

Section Specification.

Context {Env : Environment}.

(** The state in which the loop of [main] starts. *)
Local Abbreviation after_header backend s :=
  (mkState (net s)
     (stdout s ++ [opening_line (PyStr.rstrip backend "/"); PyStr.mul "=" 60])).

(** C1. Every run of [main] returns, and its exit code is 0 when the
    [failed] counter the loop leaves is 0 and 1 otherwise; that counter is
    the number of endpoints classified as failed, so the exit code is 0
    exactly when no endpoint was classified as failed. *)
Theorem main_exit_code backend s :
  ∃ c s1 s2,
    for_each (main_body (PyStr.rstrip backend "/")) endpoints
      (mkCounters 0 0 0) (after_header backend s) = (Ok c, s1)
    ∧ main backend s = (Ok (if (failed c =? 0)%Z then 0 else 1), s2)
    ∧ failed c =
        tally Failed (outcomes (PyStr.rstrip backend "/") endpoints (net s))
    ∧ ((main backend s).1 = Ok 0 ↔
        Failed ∉ classify <$> outcomes (PyStr.rstrip backend "/") endpoints (net s))
    ∧ ((main backend s).1 = Ok 1 ↔
        Failed ∈ classify <$> outcomes (PyStr.rstrip backend "/") endpoints (net s)).
Proof.
  pose proof (main_run backend s) as Hmain. cbv zeta in Hmain.
  set (base := PyStr.rstrip backend "/") in *.
  set (rs := outcomes base endpoints (net s)) in *.
  set (c := count_all rs (mkCounters 0 0 0)) in *.
  destruct (count_all_tally rs (mkCounters 0 0 0)) as (_ & _ & Hf).
  fold c in Hf. cbn [failed] in Hf. rewrite Z.add_0_l in Hf.
  eexists c, _, _. rewrite for_each_run. cbn [net].
  split; [reflexivity|]. split; [exact Hmain|]. split; [exact Hf|].
  rewrite Hmain. cbn [fst].
  pose proof (tally_zero Failed rs) as Hz. rewrite <- Hf in Hz.
  unfold exit_code. destruct (Z.eqb_spec (failed c) 0) as [H0|H0].
  - split; split.
    + intros _. by apply Hz.
    + done.
    + congruence.
    + intros Hin. by apply Hz in H0.
  - split; split.
    + congruence.
    + intros Hn. by apply Hz in Hn.
    + intros _. destruct (decide (Failed ∈ classify <$> rs)) as [|Hn]; [done|].
      by apply Hz in Hn.
    + done.
Qed.

(** C2. In every run of [main] each table entry adds one to exactly one of
    the three counters, and after the loop [passed + protected + failed]
    is 19, the length of the table; these are the counters of the summary
    line. *)
Theorem counters_add_up backend s :
  (∀ base c endpoint st, ∃ c' st',
      main_body base c endpoint st = (Ok c', st') ∧
      ((passed c' = passed c + 1 ∧ protected c' = protected c ∧ failed c' = failed c) ∨
       (passed c' = passed c ∧ protected c' = protected c + 1 ∧ failed c' = failed c) ∨
       (passed c' = passed c ∧ protected c' = protected c ∧ failed c' = failed c + 1)))
  ∧ ∃ c s1 s2,
      for_each (main_body (PyStr.rstrip backend "/")) endpoints
        (mkCounters 0 0 0) (after_header backend s) = (Ok c, s1)
      ∧ passed c + protected c + failed c = 19
      ∧ Z.of_nat (length endpoints) = 19
      ∧ main backend s = (Ok (exit_code c), s2)
      ∧ summary_line c ∈ stdout s2.
Proof.
  split.
  - intros base c [[method path] name] st.
    rewrite main_body_run. cbv zeta. eexists _, _. split; [reflexivity|].
    destruct (classify _); cbn [bump passed protected failed]; auto.
  - pose proof (main_run backend s) as Hmain. cbv zeta in Hmain.
    set (base := PyStr.rstrip backend "/") in *.
    set (rs := outcomes base endpoints (net s)) in *.
    set (c := count_all rs (mkCounters 0 0 0)) in *.
    destruct (count_all_tally rs (mkCounters 0 0 0)) as (Hp & Hq & Hf).
    fold c in Hp, Hq, Hf. cbn [passed protected failed] in Hp, Hq, Hf.
    pose proof (tally_total rs) as Ht.
    assert (length rs = length endpoints) as Hlen by apply outcomes_length.
    eexists c, _, _. rewrite for_each_run. cbn [net].
    split; [reflexivity|].
    split; [rewrite Hp, Hq, Hf, Z.add_0_l, Z.add_0_l, Z.add_0_l, Ht, Hlen; reflexivity|].
    split; [reflexivity|]. split; [exact Hmain|].
    cbn [stdout]. rewrite !elem_of_app. right. right. set_solver.
Qed.

(** C7. Whatever happens in a check (the serialisation of the body fails,
    the backend answers with an error status, the connection fails, or
    anything else is raised), [check_endpoint] returns a pair and raises
    nothing; [main] therefore checks all 19 entries of the table, prints a
    line for each and returns. *)
Theorem no_failure_aborts base_url path method data headers backend s :
  (∃ r s', check_endpoint base_url path method data headers s = (Ok r, s'))
  ∧ ∃ c s1 code w lines,
      for_each (main_body (PyStr.rstrip backend "/")) endpoints
        (mkCounters 0 0 0) (after_header backend s) = (Ok c, s1)
      ∧ main backend s =
          (Ok code,
           mkState w
             (stdout s ++ [opening_line (PyStr.rstrip backend "/"); PyStr.mul "=" 60]
                ++ lines ++ [PyStr.mul "=" 60; summary_line c; closing_line c]))
      ∧ lines = zip_with line_of endpoints
                  (outcomes (PyStr.rstrip backend "/") endpoints (net s))
      ∧ length (outcomes (PyStr.rstrip backend "/") endpoints (net s)) = 19%nat
      ∧ length lines = 19%nat.
Proof.
  split; [rewrite check_endpoint_run; eauto|].
  pose proof (main_run backend s) as Hmain. cbv zeta in Hmain.
  eexists _, _, _, _, _. rewrite for_each_run.
  split; [reflexivity|]. split; [exact Hmain|]. split; [reflexivity|].
  pose proof (outcomes_length (PyStr.rstrip backend "/") endpoints (net s)) as Hlen.
  split; [exact Hlen|].
  rewrite length_zip_with, Hlen. reflexivity.
Qed.

(** C3. When the request of a check is answered with the HTTP error
    status 401 or 403, [check_endpoint] returns [True] and the message
    "Protected (<status>)"; on that result [main] adds one to [protected],
    leaves [failed] and [passed] alone and prints the line with the lock. *)
Theorem protected_is_not_failed base_url path method data headers s
    req code reason w' :
  code = 401 ∨ code = 403 →
  request_for base_url path method data headers = Ok req →
  urlopen req 10 (net s) = (Raise (HTTPError code reason), w') →
  check_endpoint base_url path method data headers s =
    (Ok (true, "Protected (" +:+ PyStr.of_int code +:+ ")"),
     mkState w' (stdout s))
  ∧ classify (true, "Protected (" +:+ PyStr.of_int code +:+ ")") = Protected
  ∧ ∀ c name st st',
      check_endpoint base_url path method None None st =
        (Ok (true, "Protected (" +:+ PyStr.of_int code +:+ ")"), st') →
      main_body base_url c (method, path, name) st =
        (Ok (mkCounters (passed c) (failed c) (protected c + 1)),
         mkState (net st')
           (stdout st' ++
              [endpoint_line "🔒" name method path
                 ("Protected (" +:+ PyStr.of_int code +:+ ")")])).
Proof.
  intros Hcode Hreq Hopen. split; [|split].
  - rewrite check_endpoint_run. unfold check. rewrite Hreq, Hopen.
    cbn [fst snd verdict]. rewrite decide_True; [done|].
    destruct Hcode as [->| ->]; set_solver.
  - reflexivity.
  - intros c name st st' Hcheck.
    unfold main_body, mbind, M_bind. rewrite Hcheck.
    reflexivity.
Qed.

(** C4. When the request of a check is answered with an HTTP error status
    other than 401 and 403, [check_endpoint] returns [False] and the
    message "HTTP <code>: <reason phrase>". *)
Theorem http_error_fails base_url path method data headers s
    req code reason w' :
  code ≠ 401 → code ≠ 403 →
  request_for base_url path method data headers = Ok req →
  urlopen req 10 (net s) = (Raise (HTTPError code reason), w') →
  check_endpoint base_url path method data headers s =
    (Ok (false, "HTTP " +:+ PyStr.of_int code +:+ ": " +:+ reason),
     mkState w' (stdout s)).
Proof.
  intros H401 H403 Hreq Hopen.
  rewrite check_endpoint_run. unfold check. rewrite Hreq, Hopen.
  cbn [fst snd verdict]. rewrite decide_False; [done|].
  rewrite !elem_of_cons, elem_of_nil. tauto.
Qed.

(** C5, amended. When a connection-level failure is raised by [urlopen] as
    a [URLError] (that is not an [HTTPError]), [check_endpoint] returns
    [False] and a message that is "Connection failed: " followed by the
    reason. *)
Theorem connection_failure_fails base_url path method data headers s
    req reason w' :
  request_for base_url path method data headers = Ok req →
  urlopen req 10 (net s) = (Raise (URLError reason), w') →
  check_endpoint base_url path method data headers s =
    (Ok (false, "Connection failed: " +:+ reason), mkState w' (stdout s))
  ∧ String.prefix "Connection failed:" ("Connection failed: " +:+ reason) = true.
Proof.
  intros Hreq Hopen. split; [|reflexivity].
  rewrite check_endpoint_run. unfold check. by rewrite Hreq, Hopen.
Qed.

(** C6, amended. When [urlopen] returns a response instead of raising,
    [check_endpoint] returns [True] and the message "OK (<status>)" with
    the status of that response. *)
Theorem returned_response_is_ok base_url path method data headers s
    req resp w' :
  request_for base_url path method data headers = Ok req →
  urlopen req 10 (net s) = (Ok resp, w') →
  check_endpoint base_url path method data headers s =
    (Ok (true, "OK (" +:+ PyStr.of_int (status resp) +:+ ")"),
     mkState w' (stdout s)).
Proof.
  intros Hreq Hopen.
  rewrite check_endpoint_run. unfold check. by rewrite Hreq, Hopen.
Qed.

(** C10. A call of [check_endpoint] with the empty dictionary as body
    does what the call without a body does: the request handed to
    [urlopen] has no data, and the result is the verdict on the answer to
    that request.  A request carries data exactly when the dictionary is
    not empty. *)
Theorem empty_body_is_no_body base_url path method headers s :
  check_endpoint base_url path method (Some ∅) headers s =
    check_endpoint base_url path method None headers s
  ∧ check_endpoint base_url path method (Some ∅) headers s =
      (let answer :=
         urlopen (mkRequest (base_url +:+ path) None
                    (request_headers headers) method) 10 (net s) in
       (Ok (verdict answer.1), mkState answer.2 (stdout s)))
  ∧ request_for base_url path method (Some ∅) headers =
      Ok (mkRequest (base_url +:+ path) None (request_headers headers) method)
  ∧ ∀ d : gmap string value,
      match request_for base_url path method (Some d) headers with
      | Ok req => data req = None ↔ d = ∅
      | Raise _ => d ≠ ∅
      end.
Proof.
  assert (request_for base_url path method (Some ∅) headers =
          Ok (mkRequest (base_url +:+ path) None (request_headers headers) method))
    as Hreq by (unfold request_for; by rewrite decide_True).
  split; [|split; [|split]].
  - rewrite !check_endpoint_run. unfold check. by rewrite Hreq.
  - rewrite check_endpoint_run. unfold check. rewrite Hreq. cbv zeta.
    by destruct (urlopen _ _ _).
  - exact Hreq.
  - intros d. unfold request_for.
    destruct (decide (d = ∅)) as [Hd|Hd]; [done|].
    destruct (json_dumps d); [|done]. simpl. split; [done|by intros ?].
Qed.

(** The results of the checks when every GET is answered with 200 and
    every POST with the error status 401. *)
Lemma outcomes_guarded_login base eps w :
  (∀ req t w, method req = "GET" →
     ∃ w', urlopen req t w = (Ok (mkResponse 200), w')) →
  (∀ req t w, method req = "POST" →
     ∃ reason w', urlopen req t w = (Raise (HTTPError 401 reason), w')) →
  Forall (λ endpoint, endpoint.1.1 = "GET" ∨ endpoint.1.1 = "POST") eps →
  outcomes base eps w =
  (λ endpoint, if decide (endpoint.1.1 = "GET")
               then (true, "OK (200)") else (true, "Protected (401)")) <$> eps.
Proof.
  intros Hget Hpost Heps. revert w.
  induction Heps as [|[[method path] name] eps Hm _ IH]; intros w; [done|].
  cbn [outcomes fmap list_fmap fst]. unfold check, request_for.
  destruct Hm as [Hm|Hm]; cbn [fst] in Hm; subst method.
  - destruct (Hget (mkRequest (base +:+ path) None (request_headers None) "GET")
                10 w eq_refl) as [w' ->].
    rewrite IH. reflexivity.
  - destruct (Hpost (mkRequest (base +:+ path) None (request_headers None) "POST")
                10 w eq_refl) as (reason & w' & ->).
    rewrite IH. reflexivity.
Qed.

(** C8. When the backend answers every GET with 200 and the login POST
    with 401, the table having 18 GET entries and one POST entry, [main]
    counts 18 passed, 1 protected and 0 failed, says so in the summary
    line and returns 0. *)
Theorem all_up_with_guarded_login backend s :
  (∀ req t w, method req = "GET" →
     ∃ w', urlopen req t w = (Ok (mkResponse 200), w')) →
  (∀ req t w, method req = "POST" →
     ∃ reason w', urlopen req t w = (Raise (HTTPError 401 reason), w')) →
  length (filter (λ endpoint, endpoint.1.1 = "GET") endpoints) = 18%nat
  ∧ filter (λ endpoint, endpoint.1.1 = "POST") endpoints =
      [("POST", "/api/v1/users/login", "Login Endpoint")]
  ∧ ∃ s1 w lines,
      for_each (main_body (PyStr.rstrip backend "/")) endpoints
        (mkCounters 0 0 0) (after_header backend s) = (Ok (mkCounters 18 0 1), s1)
      ∧ main backend s =
          (Ok 0,
           mkState w
             (stdout s ++ [opening_line (PyStr.rstrip backend "/"); PyStr.mul "=" 60]
                ++ lines
                ++ [PyStr.mul "=" 60;
                    PyStr.nl +:+ "📊 Results: 18 passed, 1 protected, 0 failed";
                    PyStr.nl +:+ "✅ Backend is ready for launch!"]))
      ∧ length lines = 19%nat.
Proof.
  intros Hget Hpost.
  split; [by vm_compute|]. split; [by vm_compute|].
  assert (∀ w, count_all (outcomes (PyStr.rstrip backend "/") endpoints w)
                 (mkCounters 0 0 0) = mkCounters 18 0 1) as Hc.
  { intros w. rewrite (outcomes_guarded_login _ _ _ Hget Hpost).
    - by vm_compute.
    - by apply (bool_decide_unpack _). }
  eexists _, _, _. rewrite for_each_run, main_run. cbv zeta. cbn [net].
  rewrite Hc.
  split; [reflexivity|]. split; [reflexivity|].
  by rewrite length_zip_with, outcomes_length.
Qed.

(** C9, amended. For every table entry [main] prints one line: the icon,
    the label left-aligned and filled with spaces on its right to 25
    characters, the method right-aligned and filled on its left to 5, the
    path left-aligned and filled on its right to 45, and the message of
    the check, each separated by one space. *)
Theorem endpoint_lines_layout backend s :
  ∃ code w c lines,
    main backend s =
      (Ok code,
       mkState w
         (stdout s ++ [opening_line (PyStr.rstrip backend "/"); PyStr.mul "=" 60]
            ++ lines ++ [PyStr.mul "=" 60; summary_line c; closing_line c]))
    ∧ length lines = length endpoints
    ∧ lines = zip_with line_of endpoints
                (outcomes (PyStr.rstrip backend "/") endpoints (net s))
    ∧ Forall2
        (λ '(method, path, name) line, ∃ icon message,
           line =
             icon +:+ " " +:+
             (name +:+ PyStr.mul " " (25 - String.length name)) +:+ " " +:+
             (PyStr.mul " " (5 - String.length method) +:+ method) +:+ " " +:+
             (path +:+ PyStr.mul " " (45 - String.length path)) +:+ " " +:+
             message
           ∧ icon ∈ ["✅"; "🔒"; "❌"]
           ∧ String.length (name +:+ PyStr.mul " " (25 - String.length name)) = 25%nat
           ∧ String.length (PyStr.mul " " (5 - String.length method) +:+ method) = 5%nat
           ∧ String.length (path +:+ PyStr.mul " " (45 - String.length path)) = 45%nat)
        endpoints lines.
Proof.
  eexists _, _, _, _. rewrite main_run. cbv zeta.
  split; [reflexivity|].
  pose proof (outcomes_length (PyStr.rstrip backend "/") endpoints (net s)) as Hlen.
  split; [by rewrite length_zip_with, Hlen|]. split; [reflexivity|].
  eapply Forall2_impl; [apply (zip_lines fits_columns _ _ endpoints_fit_columns Hlen)|].
  intros [[method path] name] line (r & -> & Hname & Hmethod & Hpath).
  exists (icon_of (classify r)), r.2.
  split; [reflexivity|]. split; [apply icon_of_cases|done].
Qed.

End Specification.

(** ** Running the script *)

Example rstrip_trailing_slashes :
  PyStr.rstrip "http://localhost:5000//" "/" = "http://localhost:5000" ∧
  PyStr.rstrip "http://localhost:5000" "/" = "http://localhost:5000" ∧
  PyStr.rstrip "//" "/" = EmptyString.
Proof. by vm_compute. Qed.

Example format_columns :
  PyStr.format_left "Orders" 25 = "Orders                   " ∧
  PyStr.format_right "GET" 5 = "  GET" ∧
  PyStr.format_right "OPTIONS" 5 = "OPTIONS".
Proof. by vm_compute. Qed.

(** A dictionary that cannot be serialised: the check fails with the text
    of the exception and the network is not touched. *)
Example unserialisable_body :
  check_endpoint (Env := scripted) "http://localhost:5000" "/api/v1/users/login"
    "POST" (Some {["token" := tt]}) None (mkState (Env := scripted) [Ok (mkResponse 200)] []) =
  (Ok (false, "Object of type object is not JSON serializable"),
   mkState (Env := scripted) [Ok (mkResponse 200)] []).
Proof. by vm_compute. Qed.

(** Nothing listens on the port: 19 failed, exit code 1. *)
Example backend_unreachable :
  ∃ lines,
    main (Env := scripted) "http://localhost:5000/" (mkState (Env := scripted) [] []) =
    (Ok 1,
     mkState (Env := scripted) []
       ([opening_line "http://localhost:5000"; PyStr.mul "=" 60] ++ lines ++
        [PyStr.mul "=" 60;
         PyStr.nl +:+ "📊 Results: 0 passed, 0 protected, 19 failed";
         PyStr.nl +:+ "⚠️  19 endpoint(s) have issues. Check logs."]))
    ∧ length lines = 19%nat.
Proof. eexists. split; [rewrite main_run; reflexivity|reflexivity]. Qed.

(** *** Instances of the theorems that have premises *)

Lemma protected_is_not_failed_witness :
  (401 = 401 ∨ 401 = 403) ∧
  check_endpoint (Env := scripted) "http://localhost:5000" "/api/v1/users/me"
    "GET" None None (mkState (Env := scripted) [Raise (HTTPError 401 "Unauthorized")] []) =
  (Ok (true, "Protected (401)"), mkState (Env := scripted) [] []).
Proof.
  split; [left; reflexivity|].
  apply (protected_is_not_failed (Env := scripted)
           "http://localhost:5000" "/api/v1/users/me" "GET" None None
           (mkState (Env := scripted) [Raise (HTTPError 401 "Unauthorized")] [])
           (mkRequest "http://localhost:5000/api/v1/users/me" None
              {["Content-Type" := "application/json"]} "GET")
           401 "Unauthorized" []);
    [left; reflexivity | reflexivity | reflexivity].
Defined.

Lemma http_error_fails_witness :
  500 ≠ 401 ∧ 500 ≠ 403 ∧
  check_endpoint (Env := scripted) "http://localhost:5000" "/api/v1/config"
    "GET" None None (mkState (Env := scripted) [Raise (HTTPError 500 "Internal Server Error")] []) =
  (Ok (false, "HTTP 500: Internal Server Error"), mkState (Env := scripted) [] []).
Proof.
  split; [lia|]. split; [lia|].
  apply (http_error_fails (Env := scripted)
           "http://localhost:5000" "/api/v1/config" "GET" None None
           (mkState (Env := scripted) [Raise (HTTPError 500 "Internal Server Error")] [])
           (mkRequest "http://localhost:5000/api/v1/config" None
              {["Content-Type" := "application/json"]} "GET")
           500 "Internal Server Error" []);
    [lia | lia | reflexivity | reflexivity].
Defined.

Lemma connection_failure_fails_witness :
  check_endpoint (Env := scripted) "http://localhost:5000" "/health"
    "GET" None None (mkState (Env := scripted) [] []) =
  (Ok (false, "Connection failed: [Errno 111] Connection refused"), mkState (Env := scripted) [] [])
  ∧ String.prefix "Connection failed:"
      "Connection failed: [Errno 111] Connection refused" = true.
Proof.
  apply (connection_failure_fails (Env := scripted)
           "http://localhost:5000" "/health" "GET" None None (mkState (Env := scripted) [] [])
           (mkRequest "http://localhost:5000/health" None
              {["Content-Type" := "application/json"]} "GET")
           "[Errno 111] Connection refused" []);
    reflexivity.
Defined.

Lemma returned_response_is_ok_witness :
  check_endpoint (Env := scripted) "http://localhost:5000" "/health"
    "GET" None None (mkState (Env := scripted) [Ok (mkResponse 204)] []) =
  (Ok (true, "OK (204)"), mkState (Env := scripted) [] []).
Proof.
  apply (returned_response_is_ok (Env := scripted)
           "http://localhost:5000" "/health" "GET" None None
           (mkState (Env := scripted) [Ok (mkResponse 204)] [])
           (mkRequest "http://localhost:5000/health" None
              {["Content-Type" := "application/json"]} "GET")
           (mkResponse 204) []);
    reflexivity.
Defined.

Lemma all_up_with_guarded_login_witness :
  length (filter (λ endpoint, endpoint.1.1 = "GET") endpoints) = 18%nat
  ∧ filter (λ endpoint, endpoint.1.1 = "POST") endpoints =
      [("POST", "/api/v1/users/login", "Login Endpoint")]
  ∧ ∃ s1 w lines,
      for_each (main_body (Env := guarded_login) "http://localhost:5000") endpoints
        (mkCounters 0 0 0)
        (mkState (Env := guarded_login) tt [opening_line "http://localhost:5000"; PyStr.mul "=" 60])
        = (Ok (mkCounters 18 0 1), s1)
      ∧ main (Env := guarded_login) "http://localhost:5000/" (mkState (Env := guarded_login) tt []) =
          (Ok 0,
           mkState (Env := guarded_login) w
             ([opening_line "http://localhost:5000"; PyStr.mul "=" 60]
                ++ lines
                ++ [PyStr.mul "=" 60;
                    PyStr.nl +:+ "📊 Results: 18 passed, 1 protected, 0 failed";
                    PyStr.nl +:+ "✅ Backend is ready for launch!"]))
      ∧ length lines = 19%nat.
Proof.
  apply (all_up_with_guarded_login (Env := guarded_login)
           "http://localhost:5000/" (mkState (Env := guarded_login) tt [])).
  - intros req t w Hget. exists w. simpl. by rewrite decide_True.
  - intros req t w Hpost. exists "UNAUTHORIZED", w. simpl.
    rewrite decide_False; [done|]. by rewrite Hpost.
Defined.

(** *** Where the specification and the script part *)

(** C6 as stated fails: a response with status 500 arrives without any
    transport error and is reported as a failure, and one with status 401
    is reported as protected, neither as "OK (<status>)". *)
Lemma error_response_is_not_ok :
  response_status
    (urlopen (Environment := scripted)
       (mkRequest "http://localhost:5000/health" None
          {["Content-Type" := "application/json"]} "GET")
       10 [Raise (HTTPError 500 "Internal Server Error")]).1 = Some 500
  ∧ check_endpoint (Env := scripted) "http://localhost:5000" "/health" "GET"
      None None (mkState (Env := scripted) [Raise (HTTPError 500 "Internal Server Error")] []) =
    (Ok (false, "HTTP 500: Internal Server Error"), mkState (Env := scripted) [] [])
  ∧ (check_endpoint (Env := scripted) "http://localhost:5000" "/health" "GET"
       None None (mkState (Env := scripted) [Raise (HTTPError 500 "Internal Server Error")] [])).1
    ≠ Ok (true, "OK (500)")
  ∧ (check_endpoint (Env := scripted) "http://localhost:5000" "/health" "GET"
       None None (mkState (Env := scripted) [Raise (HTTPError 401 "Unauthorized")] [])).1
    ≠ Ok (true, "OK (401)").
Proof.
  split; [reflexivity|]. split; [by vm_compute|].
  split; vm_compute; discriminate.
Qed.

(** C5 as stated fails: a timeout while waiting for the response is a
    connection-level failure, [urlopen] raises it as a [TimeoutError] and
    not as a [URLError], and the check reports its text alone, without
    "Connection failed:" before it. *)
Lemma read_timeout_is_not_connection_failed :
  raised_for ReadTimeout = OtherException "timed out"
  ∧ check_endpoint (Env := scripted) "http://localhost:5000" "/health" "GET"
      None None (mkState (Env := scripted) [Raise (raised_for ReadTimeout)] []) =
    (Ok (false, "timed out"), mkState (Env := scripted) [] [])
  ∧ String.prefix "Connection failed:" "timed out" = false.
Proof. split; [reflexivity|]. split; by vm_compute. Qed.

(** C9 as stated fails: the line [main] prints for the first table entry
    has the fill of the label and of the path on the right and that of the
    method on the left, the other way round from a left-padded label, a
    right-padded method and a left-padded path. *)
Lemma label_fill_is_on_the_right :
  stdout (main (Env := guarded_login) "http://localhost:5000"
            (mkState (Env := guarded_login) tt [])).2 !! 2%nat =
    Some "✅ Core Health                 GET /health                                       OK (200)"
  ∧ endpoint_line_as_specified "✅" "Core Health" "GET" "/health" "OK (200)" =
    "✅               Core Health GET                                         /health OK (200)"
  ∧ stdout (main (Env := guarded_login) "http://localhost:5000"
              (mkState (Env := guarded_login) tt [])).2 !! 2%nat ≠
    Some (endpoint_line_as_specified "✅" "Core Health" "GET" "/health" "OK (200)").
Proof.
  split; [by vm_compute|]. split; [by vm_compute|].
  vm_compute. discriminate.
Qed.

(** ** More on the script *)

Local Open Scope list_scope.

(** *** Strings *)

Lemma str_app_cons (a : ascii) (s t : string) :
  String a s +:+ t = String a (s +:+ t).
Proof. reflexivity. Qed.

Lemma str_app_nil_l (t : string) : EmptyString +:+ t = t.
Proof. reflexivity. Qed.

Lemma str_app_assoc (s t u : string) : (s +:+ t) +:+ u = s +:+ (t +:+ u).
Proof.
  induction s as [|a s IH]; [done|]. by rewrite !str_app_cons, IH.
Qed.

Lemma str_app_nil_r (s : string) : s +:+ EmptyString = s.
Proof. induction s as [|a s IH]; [done|]. by rewrite str_app_cons, IH. Qed.

Lemma mul_char_S (c : ascii) (n : nat) :
  PyStr.mul (String c EmptyString) (S n) =
  String c (PyStr.mul (String c EmptyString) n).
Proof. reflexivity. Qed.

Lemma rstrip_snoc (s : string) (c : ascii) :
  PyStr.rstrip (s +:+ String c EmptyString) c = PyStr.rstrip s c.
Proof.
  induction s as [|a s IH].
  - rewrite str_app_nil_l. simpl. by rewrite Ascii.eqb_refl.
  - rewrite str_app_cons. simpl. by rewrite IH.
Qed.

Lemma rstrip_mul (s : string) (c : ascii) (n : nat) :
  PyStr.rstrip (s +:+ PyStr.mul (String c EmptyString) n) c = PyStr.rstrip s c.
Proof.
  revert s. induction n as [|n IH]; intros s.
  - simpl. by rewrite str_app_nil_r.
  - rewrite mul_char_S.
    change (String c (PyStr.mul (String c EmptyString) n))
      with (String c EmptyString +:+ PyStr.mul (String c EmptyString) n).
    by rewrite <- str_app_assoc, IH, rstrip_snoc.
Qed.

Lemma rstrip_split (s : string) (c : ascii) :
  ∃ n, s = PyStr.rstrip s c +:+ PyStr.mul (String c EmptyString) n.
Proof.
  induction s as [|a s [n IH]]; [by exists 0%nat|]. simpl.
  destruct (PyStr.rstrip s c) as [|b r] eqn:Hr.
  - rewrite str_app_nil_l in IH. destruct (Ascii.eqb_spec a c) as [->|Hne].
    + exists (S n). by rewrite str_app_nil_l, mul_char_S, <- IH.
    + exists n. by rewrite str_app_cons, str_app_nil_l, <- IH.
  - exists n. by rewrite str_app_cons, <- IH.
Qed.

Lemma rstrip_no_trailing (s t : string) (c : ascii) :
  PyStr.rstrip s c ≠ t +:+ String c EmptyString.
Proof.
  revert t. induction s as [|a s IH]; intros t; simpl.
  - by destruct t.
  - destruct (PyStr.rstrip s c) as [|b r] eqn:Hr.
    + destruct (Ascii.eqb_spec a c) as [->|Hne]; [by destruct t|].
      destruct t as [|a' t]; [rewrite str_app_nil_l; congruence|].
      rewrite str_app_cons. intros [= _ Ht]. by destruct t.
    + destruct t as [|a' t]; [rewrite str_app_nil_l; congruence|].
      rewrite str_app_cons. intros [= _ Ht]. by apply (IH t).
Qed.

Lemma rstrip_idempotent (s : string) (c : ascii) :
  PyStr.rstrip (PyStr.rstrip s c) c = PyStr.rstrip s c.
Proof.
  induction s as [|a s IH]; simpl; [done|].
  destruct (PyStr.rstrip s c) as [|b r] eqn:Hr.
  - destruct (Ascii.eqb_spec a c) as [->|Hne]; simpl; [done|].
    by rewrite (proj2 (Ascii.eqb_neq a c) Hne).
  - change (PyStr.rstrip (String a (String b r)) c)
      with (match PyStr.rstrip (String b r) c with
            | EmptyString => if Ascii.eqb a c then EmptyString else String a EmptyString
            | String _ _ as r' => String a r'
            end).
    by rewrite IH.
Qed.

(** *** The base URL *)

(** X1. The base URL [main] works with is the [--backend] value without its
    trailing slashes: the two differ by a run of slashes at the end only,
    the base does not end with a slash, and stripping it again changes
    nothing. *)
Theorem base_has_no_trailing_slash (backend : string) :
  (∃ n, backend = PyStr.rstrip backend "/" +:+ PyStr.mul "/" n)
  ∧ (∀ t, PyStr.rstrip backend "/" ≠ t +:+ "/")
  ∧ PyStr.rstrip (PyStr.rstrip backend "/") "/" = PyStr.rstrip backend "/".
Proof.
  split; [apply rstrip_split|]. split; [intros t; apply rstrip_no_trailing|].
  apply rstrip_idempotent.
Qed.

(** X2. Trailing slashes on [--backend] make no difference to a run: [main]
    sends the same requests, prints the same lines and returns the same
    exit code with and without them. *)
Theorem trailing_slashes_ignored `{Env : Environment} backend n s :
  main (backend +:+ PyStr.mul "/" n) s = main backend s.
Proof. unfold main. by rewrite rstrip_mul. Qed.

(** *** What is sent *)

Section Wiretap.

Context (E : Environment).

Lemma recorded_check base_url path method
    (data : option (gmap string (@value E))) headers w log :
  check (Env := recorded E) base_url path method data headers (w, log) =
  ((check (Env := E) base_url path method data headers w).1,
   ((check (Env := E) base_url path method data headers w).2,
    log ++ match request_for (Env := E) base_url path method data headers with
           | Ok req => [(req, 10)]
           | Raise _ => []
           end)).
Proof.
  unfold check.
  change (request_for (Env := recorded E) base_url path method data headers)
    with (request_for (Env := E) base_url path method data headers).
  destruct (request_for (Env := E) base_url path method data headers) as [req|e].
  - cbn [urlopen recorded fst snd].
    by destruct (urlopen (Environment := E) req 10 w).
  - cbn [fst snd]. by rewrite app_nil_r.
Qed.

Lemma recorded_network_after base eps w log :
  network_after (Env := recorded E) base eps (w, log) =
  (network_after (Env := E) base eps w,
   log ++ ((λ endpoint, (table_request base endpoint, 10)) <$> eps)).
Proof.
  revert w log. induction eps as [|[[method path] name] eps IH]; intros w log.
  - simpl. by rewrite app_nil_r.
  - cbn [network_after]. rewrite recorded_check. cbn [snd].
    rewrite IH. cbn [fmap list_fmap]. by rewrite <- app_assoc.
Qed.

Lemma prefix_weaken (p s t : string) :
  String.prefix p s = true → String.prefix p (s +:+ t) = true.
Proof.
  revert p. induction s as [|b s IH]; intros p Hp.
  - destruct p; [|done]. rewrite str_app_nil_l. by destruct t.
  - destruct p as [|a p]; [done|]. rewrite str_app_cons. simpl in *.
    destruct (ascii_dec a b); [by apply IH|done].
Qed.

Lemma all_plain_app (s t : string) :
  all_plain (s +:+ t) = all_plain s && all_plain t.
Proof.
  induction s as [|a s IH]; [done|].
  rewrite str_app_cons. simpl. by rewrite IH, andb_assoc.
Qed.

Lemma plain_http_url_app (url path : string) :
  plain_http_url url = true → all_plain path = true →
  plain_http_url (url +:+ path) = true.
Proof.
  unfold plain_http_url. rewrite !andb_true_iff, !orb_true_iff.
  intros [Hscheme Hurl] Hpath. split.
  - destruct Hscheme as [H|H]; [left|right]; by apply prefix_weaken.
  - by rewrite all_plain_app, Hurl, Hpath.
Qed.

Lemma table_paths_plain :
  Forall (λ endpoint : string * string * string,
            all_plain endpoint.1.2 = true) endpoints.
Proof. by apply (bool_decide_unpack _). Qed.

(** X3. For a base URL that is a plain http or https URL, every URL of the
    table is one the constructor of the request accepts, and a run of
    [main] calls [urlopen] exactly once per table entry, in table order,
    whatever the answers are: each request is built for the base URL
    followed by the path of the entry, with the method of the entry, no
    body and the headers [Content-Type: application/json], and is opened
    with a timeout of 10 seconds. *)
Theorem main_sends_the_table backend w log out :
  plain_http_url (PyStr.rstrip backend "/") = true →
  Forall (λ endpoint : string * string * string,
            plain_http_url (PyStr.rstrip backend "/" +:+ endpoint.1.2) = true)
    endpoints
  ∧ (net (main (Env := recorded E) backend
            (mkState (Env := recorded E) (w, log) out)).2).2 =
    log ++ ((λ endpoint,
               (mkRequest (PyStr.rstrip backend "/" +:+ endpoint.1.2) None
                  {["Content-Type" := "application/json"]} endpoint.1.1, 10))
            <$> endpoints)
  ∧ length endpoints = 19%nat.
Proof.
  intros Hbase. split; [|split; [|reflexivity]].
  - eapply Forall_impl; [exact table_paths_plain|].
    intros endpoint Hpath. by apply plain_http_url_app.
  - rewrite main_run. cbv zeta. cbn [snd net].
    by rewrite recorded_network_after.
Qed.

End Wiretap.

(** *** The body *)

(** X5. When [json.dumps] raises on the body, the check fails with the text
    of the exception and nothing else happens: [urlopen] is not called, the
    network and the output are as before. *)
Theorem serialisation_failure_sends_nothing `{Env : Environment}
    base_url path verb (body : gmap string value) extra s msg :
  body ≠ ∅ →
  json_dumps body = Raise (OtherException msg) →
  check_endpoint base_url path verb (Some body) extra s = (Ok (false, msg), s).
Proof.
  intros Hne Hdumps. rewrite check_endpoint_run. unfold check, request_for.
  rewrite decide_False by done. rewrite Hdumps. by destruct s.
Qed.

(** X6. For a plain http or https URL, a body that is a non-empty
    dictionary is serialised with [json.dumps] and handed over encoded as
    the data of the one request the check builds and opens. *)
Theorem body_is_sent_as_json (E : Environment)
    base_url path verb (body : gmap string (@value E)) js w log out :
  plain_http_url (base_url +:+ path) = true →
  body ≠ ∅ →
  json_dumps body = Ok js →
  (net (check_endpoint (Env := recorded E) base_url path verb (Some body)
          None (mkState (Env := recorded E) (w, log) out)).2).2
  = log ++ [(mkRequest (base_url +:+ path) (Some (encode js))
               {["Content-Type" := "application/json"]} verb, 10)].
Proof.
  intros _ Hne Hdumps. rewrite check_endpoint_run. cbn [snd net].
  rewrite recorded_check. cbn [snd]. unfold request_for.
  rewrite decide_False by done. by rewrite Hdumps.
Qed.

Lemma serialisation_failure_sends_nothing_witness :
  ({["token" := tt]} : gmap string unit) ≠ ∅ ∧
  check_endpoint (Env := scripted) "http://localhost:5000" "/api/v1/users/login"
    "POST" (Some {["token" := tt]}) None
    (mkState (Env := scripted) [Ok (mkResponse 200)] []) =
  (Ok (false, "Object of type object is not JSON serializable"),
   mkState (Env := scripted) [Ok (mkResponse 200)] []).
Proof.
  split; [by apply (bool_decide_unpack _)|].
  apply (serialisation_failure_sends_nothing (Env := scripted));
    [by apply (bool_decide_unpack _)|reflexivity].
Defined.

Lemma body_is_sent_as_json_witness :
  plain_http_url ("http://localhost:5000" +:+ "/api/v1/users/login") = true ∧
  (net (check_endpoint (Env := recorded serialising) "http://localhost:5000"
          "/api/v1/users/login" "POST" (Some {["pin" := 7]}) None
          (mkState (Env := recorded serialising) (tt, []) [])).2).2
  = [(mkRequest "http://localhost:5000/api/v1/users/login"
        (Some (list_byte_of_string
                 ("{" +:+ String "034"%char EmptyString +:+ "pin" +:+
                  String "034"%char EmptyString +:+ ": 7}")))
        {["Content-Type" := "application/json"]} "POST", 10)].
Proof.
  split; [by vm_compute|].
  apply (body_is_sent_as_json serialising "http://localhost:5000"
           "/api/v1/users/login" "POST" {["pin" := 7]}
           ("{" +:+ String "034"%char EmptyString +:+ "pin" +:+
            String "034"%char EmptyString +:+ ": 7}") tt [] []);
    [by vm_compute|by apply (bool_decide_unpack _)|by vm_compute].
Defined.

Lemma main_sends_the_table_witness :
  plain_http_url "http://localhost:5000" = true ∧
  (net (main (Env := recorded nothing_listens) "http://localhost:5000/"
          (mkState (Env := recorded nothing_listens) (tt, []) [])).2).2 =
  (λ endpoint : string * string * string,
     (mkRequest ("http://localhost:5000" +:+ endpoint.1.2) None
        {["Content-Type" := "application/json"]} endpoint.1.1, 10))
  <$> endpoints.
Proof.
  split; [by vm_compute|].
  apply (main_sends_the_table nothing_listens "http://localhost:5000/" tt [] []).
  by vm_compute.
Defined.

(** *** From the answer to the bucket *)

Lemma has_char_app a s t : has_char a (s +:+ t) = has_char a s || has_char a t.
Proof.
  induction s as [|b s IH]; [done|].
  rewrite str_app_cons. simpl. rewrite IH. by rewrite orb_assoc.
Qed.

Lemma prefix_has_char a t s :
  String.prefix (String a t) s = true → has_char a s = true.
Proof.
  destruct s as [|b s]; simpl; [done|].
  destruct (Ascii.ascii_dec a b) as [->|Hne]; [|done].
  intros _. by rewrite Ascii.eqb_refl.
Qed.

Lemma contains_has_char a t s :
  PyStr.contains (String a t) s = true → has_char a s = true.
Proof.
  induction s as [|b s IH].
  - simpl. done.
  - intros Hc.
    change (PyStr.contains (String a t) (String b s))
      with (String.prefix (String a t) (String b s)
            || PyStr.contains (String a t) s) in Hc.
    apply orb_true_iff in Hc as [Hp|Hc].
    + by apply (prefix_has_char a t).
    + simpl. rewrite (IH Hc). by rewrite orb_true_r.
Qed.

Lemma has_char_uint d : has_char "P" (NilEmpty.string_of_uint d) = false.
Proof. induction d; simpl; done. Qed.

Lemma has_char_of_int n : has_char "P" (PyStr.of_int n) = false.
Proof.
  unfold PyStr.of_int, NilZero.string_of_int, NilZero.string_of_uint.
  destruct (Z.to_int n) as [d|d]; destruct d; simpl; try done;
    apply has_char_uint.
Qed.

(** The message of a returned response never reads as protected. *)
Lemma ok_message_not_protected n :
  PyStr.contains "Protected" ("OK (" +:+ PyStr.of_int n +:+ ")") = false.
Proof.
  destruct (PyStr.contains _ _) eqn:Hc; [|done].
  apply contains_has_char in Hc.
  rewrite !has_char_app, has_char_of_int in Hc. done.
Qed.

Lemma classify_verdict r : classify (verdict r) = answer_bucket r.
Proof.
  destruct r as [resp|[code reason|reason|msg]];
    unfold classify, verdict, answer_bucket.
  - cbn [fst snd]. by rewrite ok_message_not_protected.
  - by destruct (decide (code ∈ [401; 403])).
  - done.
  - done.
Qed.

Lemma tally_answers b rs : tally b (verdict <$> rs) = answer_tally b rs.
Proof.
  unfold answer_tally. induction rs as [|r rs IH]; [done|].
  rewrite fmap_cons, tally_cons, IH, filter_cons, classify_verdict.
  destruct (decide (answer_bucket r = b)); simpl length; lia.
Qed.

Section Buckets.

Context {Env : Environment}.

Lemma check_table base verb path w :
  check base path verb None None w =
  ((verdict (urlopen (table_request base (verb, path, EmptyString)) 10 w).1),
   (urlopen (table_request base (verb, path, EmptyString)) 10 w).2).
Proof.
  unfold check, request_for, table_request, request_headers. cbn [fst snd].
  by destruct (urlopen _ _ _).
Qed.

Lemma outcomes_answers base eps w :
  outcomes base eps w = verdict <$> answers base eps w.
Proof.
  revert w. induction eps as [|[[verb path] name] eps IH]; intros w; [done|].
  cbn [outcomes answers]. rewrite check_table.
  unfold table_request. cbn [fst snd].
  destruct (urlopen _ _ _) as [r w']. cbn [fst snd].
  by rewrite fmap_cons, IH.
Qed.

(** X7. The bucket of a table entry follows from the answer of [urlopen]
    alone, not from the text of the message: a returned response counts as
    passed whatever its status, the error statuses 401 and 403 as protected,
    and anything else raised as failed, whatever its reason says. *)
Theorem bucket_follows_answer base c verb path name s :
  main_body base c (verb, path, name) s =
  (Ok (bump (answer_bucket
               (urlopen (mkRequest (base +:+ path) None
                           {["Content-Type" := "application/json"]} verb)
                  10 (net s)).1) c),
   mkState
     (urlopen (mkRequest (base +:+ path) None
                 {["Content-Type" := "application/json"]} verb) 10 (net s)).2
     (stdout s ++
        [endpoint_line
           (icon_of (answer_bucket
                       (urlopen (mkRequest (base +:+ path) None
                                   {["Content-Type" := "application/json"]} verb)
                          10 (net s)).1))
           name verb path
           (verdict (urlopen (mkRequest (base +:+ path) None
                                {["Content-Type" := "application/json"]} verb)
                       10 (net s)).1).2])).
Proof.
  rewrite main_body_run. cbv zeta. rewrite check_table.
  unfold table_request, line_of. cbn [fst snd].
  by rewrite classify_verdict.
Qed.

Lemma answers_length base eps w : length (answers base eps w) = length eps.
Proof.
  revert w. induction eps as [|endpoint eps IH]; intros w; [done|].
  cbn [answers]. destruct (urlopen _ _ _) as [r w']. simpl. by rewrite IH.
Qed.

Lemma answers_Forall (P : result Response → Prop) base eps w :
  (∀ req t w, P (urlopen req t w).1) → Forall P (answers base eps w).
Proof.
  intros HP. revert w. induction eps as [|endpoint eps IH]; intros w.
  - constructor.
  - cbn [answers]. pose proof (HP (table_request base endpoint) 10 w) as Hr.
    destruct (urlopen _ _ _) as [r w']. constructor; [exact Hr|apply IH].
Qed.

Lemma final_counters base eps w :
  count_all (outcomes base eps w) (mkCounters 0 0 0) =
  mkCounters (answer_tally Passed (answers base eps w))
             (answer_tally Failed (answers base eps w))
             (answer_tally Protected (answers base eps w)).
Proof.
  destruct (count_all_tally (outcomes base eps w) (mkCounters 0 0 0))
    as (Hp & Hq & Hf).
  rewrite outcomes_answers, !tally_answers in *.
  destruct (count_all _ _) as [p f q]. cbn [passed protected failed] in *.
  f_equal; lia.
Qed.

End Buckets.

Lemma answer_tally_zero b rs :
  answer_tally b rs = 0 ↔ Forall (λ r, answer_bucket r ≠ b) rs.
Proof.
  unfold answer_tally. induction rs as [|r rs IH].
  - split; [constructor|done].
  - rewrite filter_cons, Forall_cons.
    destruct (decide (answer_bucket r = b)) as [Heq|Hne].
    + simpl length. split; [lia|]. by intros [? _].
    + rewrite IH. tauto.
Qed.

Lemma answer_tally_all b b' rs :
  Forall (λ r, answer_bucket r = b) rs →
  answer_tally b' rs = if decide (b = b') then Z.of_nat (length rs) else 0.
Proof.
  unfold answer_tally. induction 1 as [|r rs Hr _ IH]; [by destruct (decide _)|].
  rewrite filter_cons. rewrite Hr.
  destruct (decide (b = b')) as [Heq|Hne]; simpl length; lia.
Qed.

Lemma prefix_app (s t : string) : String.prefix s (s +:+ t) = true.
Proof.
  induction s as [|a s IH]; [by destruct t|].
  rewrite str_app_cons. simpl. by destruct (ascii_dec a a).
Qed.

Lemma lines_icon b eps rs :
  Forall (λ r, classify r = b) rs →
  Forall (λ line, String.prefix (icon_of b +:+ " ") line = true)
    (zip_with line_of eps rs).
Proof.
  intros Hrs. revert eps. induction Hrs as [|r rs Hr _ IH]; intros eps.
  - destruct eps; constructor.
  - destruct eps as [|[[verb path] name] eps]; [constructor|].
    cbn [zip_with]. constructor; [|apply IH].
    unfold line_of, endpoint_line. rewrite Hr, <- str_app_assoc.
    apply prefix_app.
Qed.

Section Summary.

Context {Env : Environment}.

(** X8. The summary and the exit code in terms of the answers: the counts
    [main] prints are the numbers of table entries whose request was
    answered with a returned response, with the error status 401 or 403,
    and with anything else; the exit code is 0 exactly when every request
    was answered in one of the first two ways. *)
Theorem summary_counts_answers backend s :
  ∃ s',
    main backend s =
      (Ok (if decide (answer_tally Failed
                        (answers (PyStr.rstrip backend "/") endpoints (net s)) = 0)
           then 0 else 1), s')
    ∧ summary_line
        (mkCounters
           (answer_tally Passed (answers (PyStr.rstrip backend "/") endpoints (net s)))
           (answer_tally Failed (answers (PyStr.rstrip backend "/") endpoints (net s)))
           (answer_tally Protected (answers (PyStr.rstrip backend "/") endpoints (net s))))
      ∈ stdout s'
    ∧ length (answers (PyStr.rstrip backend "/") endpoints (net s)) = 19%nat
    ∧ ((main backend s).1 = Ok 0 ↔
       Forall (λ r, answer_bucket r ≠ Failed)
         (answers (PyStr.rstrip backend "/") endpoints (net s))).
Proof.
  rewrite main_run. cbv zeta. rewrite final_counters.
  set (rs := answers (PyStr.rstrip backend "/") endpoints (net s)).
  unfold exit_code. cbn [failed fst].
  eexists. split; [|split; [|split]].
  - destruct (Z.eqb_spec (answer_tally Failed rs) 0) as [H0|H0].
    + by rewrite decide_True.
    + by rewrite decide_False.
  - cbn [stdout]. rewrite !elem_of_app. right. right. set_solver.
  - apply answers_length.
  - rewrite <- answer_tally_zero.
    destruct (Z.eqb_spec (answer_tally Failed rs) 0) as [H0|H0].
    + done.
    + split; [congruence|done].
Qed.

End Summary.

(** *** Two runs *)

Section Runs.

Context {Env : Environment}.

Lemma outcomes_all_in b base eps w :
  (∀ req t w, answer_bucket (urlopen req t w).1 = b) →
  Forall (λ r, answer_bucket r = b) (answers base eps w)
  ∧ Forall (λ r, classify r = b) (outcomes base eps w).
Proof.
  intros Hb.
  assert (Forall (λ r, answer_bucket r = b) (answers base eps w)) as Hall
    by (by apply answers_Forall).
  split; [done|]. rewrite outcomes_answers, Forall_fmap.
  eapply Forall_impl; [exact Hall|]. intros r Hr. simpl.
  by rewrite classify_verdict.
Qed.

(** X9. When every connection fails, [main] counts all 19 table entries as
    failed, marks each of their lines with the cross, says 19 failed in the
    summary and in the closing line, and returns 1. *)
Theorem unreachable_backend_fails_all backend s :
  (∀ req t w, ∃ reason, (urlopen req t w).1 = Raise (URLError reason)) →
  ∃ w' lines,
    main backend s =
      (Ok 1,
       mkState w'
         (stdout s ++ [opening_line (PyStr.rstrip backend "/"); PyStr.mul "=" 60]
            ++ lines
            ++ [PyStr.mul "=" 60;
                PyStr.nl +:+ "📊 Results: 0 passed, 0 protected, 19 failed";
                PyStr.nl +:+ "⚠️  19 endpoint(s) have issues. Check logs."]))
    ∧ length lines = 19%nat
    ∧ Forall (λ line, String.prefix "❌ " line = true) lines.
Proof.
  intros Hdown.
  destruct (outcomes_all_in Failed (PyStr.rstrip backend "/") endpoints (net s))
    as [Hall Hout].
  { intros req t w. by destruct (Hdown req t w) as [reason ->]. }
  eexists _, _. rewrite main_run. cbv zeta. rewrite final_counters.
  rewrite !(answer_tally_all Failed _ _ Hall), answers_length.
  split; [reflexivity|].
  split; [by rewrite length_zip_with, outcomes_length|].
  exact (lines_icon Failed _ _ Hout).
Qed.

(** X10. When every request is refused with 401 or 403, [main] counts all
    19 table entries as protected and none as passed, and still reports the
    backend as ready and returns 0. *)
Theorem all_protected_is_ready backend s :
  (∀ req t w, ∃ code reason,
     (urlopen req t w).1 = Raise (HTTPError code reason) ∧
     (code = 401 ∨ code = 403)) →
  ∃ w' lines,
    main backend s =
      (Ok 0,
       mkState w'
         (stdout s ++ [opening_line (PyStr.rstrip backend "/"); PyStr.mul "=" 60]
            ++ lines
            ++ [PyStr.mul "=" 60;
                PyStr.nl +:+ "📊 Results: 0 passed, 19 protected, 0 failed";
                PyStr.nl +:+ "✅ Backend is ready for launch!"]))
    ∧ length lines = 19%nat
    ∧ Forall (λ line, String.prefix "🔒 " line = true) lines.
Proof.
  intros Hauth.
  destruct (outcomes_all_in Protected (PyStr.rstrip backend "/") endpoints (net s))
    as [Hall Hout].
  { intros req t w. destruct (Hauth req t w) as (code & reason & -> & [->| ->]);
      reflexivity. }
  eexists _, _. rewrite main_run. cbv zeta. rewrite final_counters.
  rewrite !(answer_tally_all Protected _ _ Hall), answers_length.
  split; [reflexivity|].
  split; [by rewrite length_zip_with, outcomes_length|].
  exact (lines_icon Protected _ _ Hout).
Qed.

End Runs.

Lemma unreachable_backend_fails_all_witness :
  ∃ w' lines,
    main (Env := nothing_listens) "http://localhost:5000"
      (mkState (Env := nothing_listens) tt []) =
      (Ok 1,
       mkState (Env := nothing_listens) w'
         ([] ++ [opening_line "http://localhost:5000"; PyStr.mul "=" 60]
            ++ lines
            ++ [PyStr.mul "=" 60;
                PyStr.nl +:+ "📊 Results: 0 passed, 0 protected, 19 failed";
                PyStr.nl +:+ "⚠️  19 endpoint(s) have issues. Check logs."]))
    ∧ length lines = 19%nat
    ∧ Forall (λ line, String.prefix "❌ " line = true) lines.
Proof.
  apply (unreachable_backend_fails_all (Env := nothing_listens)
           "http://localhost:5000" (mkState (Env := nothing_listens) tt [])).
  intros req t w. exists "[Errno 111] Connection refused". reflexivity.
Defined.

Lemma all_protected_is_ready_witness :
  ∃ w' lines,
    main (Env := all_forbidden) "http://localhost:5000"
      (mkState (Env := all_forbidden) tt []) =
      (Ok 0,
       mkState (Env := all_forbidden) w'
         ([] ++ [opening_line "http://localhost:5000"; PyStr.mul "=" 60]
            ++ lines
            ++ [PyStr.mul "=" 60;
                PyStr.nl +:+ "📊 Results: 0 passed, 19 protected, 0 failed";
                PyStr.nl +:+ "✅ Backend is ready for launch!"]))
    ∧ length lines = 19%nat
    ∧ Forall (λ line, String.prefix "🔒 " line = true) lines.
Proof.
  apply (all_protected_is_ready (Env := all_forbidden)
           "http://localhost:5000" (mkState (Env := all_forbidden) tt [])).
  intros req t w. exists 403, "FORBIDDEN". split; [reflexivity|by right].
Defined.
